(** * webmock: route registry, request matching and rendering

    A shallow embedding of [webmock.go] (package [webmock]) and of the
    [WithHeaders] option shared with [gowebmock.go].  Go maps are
    modelled as stdpp [gmap]s, Go slices as lists, [*route] values as
    route records (a route is never mutated once it is appended), and
    the calls a handler makes on its [http.ResponseWriter] as a list of
    writer events.  [log.Fatal] and run-time panics are [None]. *)

From Stdlib Require Import String Ascii ZArith.
From stdpp Require Import base gmap strings list.

Open Scope string_scope.

(* ------------------------------------------------------------------ *)
(** ** Byte helpers *)

Definition byte_in (lo hi : ascii) (c : ascii) : bool :=
  (nat_of_ascii lo <=? nat_of_ascii c)%nat && (nat_of_ascii c <=? nat_of_ascii hi)%nat.

Definition is_lower (c : ascii) : bool := byte_in "a" "z" c.
Definition is_upper (c : ascii) : bool := byte_in "A" "Z" c.

(** ['a' - 'A'] is 32: [toLower] in net/textproto. *)
Definition to_upper_byte (c : ascii) : ascii :=
  if is_lower c then ascii_of_nat (nat_of_ascii c - 32) else c.
Definition to_lower_byte (c : ascii) : ascii :=
  if is_upper c then ascii_of_nat (nat_of_ascii c + 32) else c.

Fixpoint str_map (f : ascii -> ascii) (s : string) : string :=
  match s with
  | EmptyString => EmptyString
  | String c s' => String (f c) (str_map f s')
  end.

Fixpoint str_forallb (f : ascii -> bool) (s : string) : bool :=
  match s with
  | EmptyString => true
  | String c s' => f c && str_forallb f s'
  end.

Fixpoint str_existsb (f : ascii -> bool) (s : string) : bool :=
  match s with
  | EmptyString => false
  | String c s' => f c || str_existsb f s'
  end.

(* ------------------------------------------------------------------ *)
(** ** net/textproto: canonical MIME header keys *)

(** [validHeaderFieldByte]: the RFC 7230 token characters
    (letters, digits and [!#$%&'*+-.^_`|~]). *)
Definition validHeaderFieldByte (c : ascii) : bool :=
  is_lower c || is_upper c || byte_in "0" "9" c ||
  str_existsb (fun d => Ascii.eqb d c) "!#$%&'*+-.^_`|~".

(** The rewriting loop of [canonicalMIMEHeaderKey]: upper case at the
    start and after each ['-'], lower case elsewhere. *)
Fixpoint canonicalize (upper : bool) (a : string) : string :=
  match a with
  | EmptyString => EmptyString
  | String c a' =>
      let c' := if upper && is_lower c then to_upper_byte c
                else if negb upper && is_upper c then to_lower_byte c
                else c in
      String c' (canonicalize (Ascii.eqb c' "-") a')
  end.

(** [CanonicalMIMEHeaderKey]: a key holding a byte that is not a token
    character (a space included) is returned unchanged; any other key is
    canonicalized.  (The fast path of the Go function returns [s] exactly
    when [s] is already canonical, so it agrees with this.) *)
Definition CanonicalMIMEHeaderKey (s : string) : string :=
  if str_forallb validHeaderFieldByte s then canonicalize true s else s.

(** [http.Header]: canonical key to the list of values. *)
Abbreviation Header := (gmap string (list string)).

(** [Header.Get]: the first value under the canonical key, or [""]. *)
Definition header_get (h : Header) (key : string) : string :=
  match h !! CanonicalMIMEHeaderKey key with
  | Some (v :: _) => v
  | _ => ""
  end.

(** [Header.Add]: append a value under the canonical key. *)
Definition header_add (h : Header) (key value : string) : Header :=
  let k := CanonicalMIMEHeaderKey key in
  <[k := (default [] (h !! k) ++ [value])%list]> h.

(* ------------------------------------------------------------------ *)
(** ** Data model of webmock.go *)

Record route := mk_route {
  domain : string;
  method : string;
  path : string;
  query : string;
  requestHeaders : gmap string string;
  statusCode : Z;
  body : string;
  responseHeaders : gmap string string
}.

(** The part of [*http.Request] the handler reads. *)
Record request := mk_request {
  req_Method : string;
  req_URL_Path : string;
  req_URL_RawQuery : string;
  req_Header : Header
}.

Record MockServer := mk_server {
  addr : string;
  routes : list route
}.

(* ------------------------------------------------------------------ *)
(** ** Matching *)

Definition headersMatch (routeHeaders : gmap string string) (requestHeader : Header) : bool :=
  forallb (fun '(key, val) => String.eqb val (header_get requestHeader key))
    (map_to_list routeHeaders).

Definition routeMatch (rt : route) (r : request) : bool :=
  String.eqb rt.(path) r.(req_URL_Path) &&
  String.eqb rt.(method) r.(req_Method) &&
  String.eqb rt.(query) r.(req_URL_RawQuery) &&
  headersMatch rt.(requestHeaders) r.(req_Header).

(* ------------------------------------------------------------------ *)
(** ** Rendering: [ServeHTTP] *)

(** The calls the handler makes on its [http.ResponseWriter]. *)
Inductive write_event :=
| SetHeader (key value : string)   (* w.Header().Set(key, value) *)
| WriteHeader (code : Z)           (* w.WriteHeader(code) *)
| WriteString (s : string).        (* io.WriteString(w, s) *)

Definition StatusOK : Z := 200.
Definition StatusNotFound : Z := 404.

(** The [for _, route := range s.routes] loop: the last match is kept. *)
Definition find_route (rs : list route) (r : request) : option route :=
  fold_left (fun routeFound rt => if routeMatch rt r then Some rt else routeFound)
    rs None.

(** Go ranges over [routeFound.responseHeaders] in an unspecified order;
    the model fixes the order of [map_to_list]. *)
Definition render (routeFound : route) : list write_event :=
  map (fun '(headerKey, headerVal) => SetHeader headerKey headerVal)
    (map_to_list routeFound.(responseHeaders)) ++
  [WriteHeader (if Z.eqb routeFound.(statusCode) 0 then StatusOK
                else routeFound.(statusCode));
   WriteString routeFound.(body)].

Definition ServeHTTP (s : MockServer) (r : request) : list write_event :=
  match find_route s.(routes) r with
  | None => [WriteHeader StatusNotFound]
  | Some routeFound => render routeFound
  end.

(** Reading the response back from the writer calls. *)
Definition written_status (evs : list write_event) : option Z :=
  head (omap (fun e => match e with WriteHeader c => Some c | _ => None end) evs).

Definition written_body (evs : list write_event) : string :=
  fold_right (fun e acc => match e with WriteString s => s ++ acc | _ => acc end) "" evs.

Definition written_headers (evs : list write_event) : list (string * string) :=
  omap (fun e => match e with SetHeader k v => Some (k, v) | _ => None end) evs.

(* ------------------------------------------------------------------ *)
(** ** Options *)

Definition FuncOption := route -> route.

Definition set_requestHeaders (m : gmap string string) (r : route) : route :=
  mk_route r.(domain) r.(method) r.(path) r.(query) m r.(statusCode) r.(body) r.(responseHeaders).
Definition set_statusCode (c : Z) (r : route) : route :=
  mk_route r.(domain) r.(method) r.(path) r.(query) r.(requestHeaders) c r.(body) r.(responseHeaders).
Definition set_body (b : string) (r : route) : route :=
  mk_route r.(domain) r.(method) r.(path) r.(query) r.(requestHeaders) r.(statusCode) b r.(responseHeaders).
Definition set_responseHeaders (m : gmap string string) (r : route) : route :=
  mk_route r.(domain) r.(method) r.(path) r.(query) r.(requestHeaders) r.(statusCode) r.(body) m.

(** [http.StatusText]: the reason phrases net/http knows. *)
Definition status_texts : list (Z * string) :=
  [(100, "Continue"); (101, "Switching Protocols"); (102, "Processing");
   (103, "Early Hints");
   (200, "OK"); (201, "Created"); (202, "Accepted");
   (203, "Non-Authoritative Information"); (204, "No Content");
   (205, "Reset Content"); (206, "Partial Content"); (207, "Multi-Status");
   (208, "Already Reported"); (226, "IM Used");
   (300, "Multiple Choices"); (301, "Moved Permanently"); (302, "Found");
   (303, "See Other"); (304, "Not Modified"); (305, "Use Proxy");
   (307, "Temporary Redirect"); (308, "Permanent Redirect");
   (400, "Bad Request"); (401, "Unauthorized"); (402, "Payment Required");
   (403, "Forbidden"); (404, "Not Found"); (405, "Method Not Allowed");
   (406, "Not Acceptable"); (407, "Proxy Authentication Required");
   (408, "Request Timeout"); (409, "Conflict"); (410, "Gone");
   (411, "Length Required"); (412, "Precondition Failed");
   (413, "Request Entity Too Large"); (414, "Request URI Too Long");
   (415, "Unsupported Media Type"); (416, "Requested Range Not Satisfiable");
   (417, "Expectation Failed"); (418, "I'm a teapot");
   (421, "Misdirected Request"); (422, "Unprocessable Entity");
   (423, "Locked"); (424, "Failed Dependency"); (425, "Too Early");
   (426, "Upgrade Required"); (428, "Precondition Required");
   (429, "Too Many Requests"); (431, "Request Header Fields Too Large");
   (451, "Unavailable For Legal Reasons");
   (500, "Internal Server Error"); (501, "Not Implemented");
   (502, "Bad Gateway"); (503, "Service Unavailable");
   (504, "Gateway Timeout"); (505, "HTTP Version Not Supported");
   (506, "Variant Also Negotiates"); (507, "Insufficient Storage");
   (508, "Loop Detected"); (510, "Not Extended");
   (511, "Network Authentication Required")]%Z.

Definition StatusText (code : Z) : string :=
  match find (fun p => Z.eqb p.1 code) status_texts with
  | Some (_, t) => t
  | None => ""
  end.

Definition WithResponse (code : Z) (response : string) (headers : gmap string string)
  : FuncOption :=
  fun r =>
    let r := if (0 <? String.length (StatusText code))%nat then set_statusCode code r else r in
    let r := if (0 <? String.length response)%nat then set_body response r else r in
    if (0 <? size headers)%nat then set_responseHeaders headers r else r.

(** [strings.Split(s, sep)] for a one-byte separator. *)
Fixpoint split_on (sep : ascii) (s : string) : list string :=
  match s with
  | EmptyString => [EmptyString]
  | String c s' =>
      if Ascii.eqb c sep then EmptyString :: split_on sep s'
      else match split_on sep s' with
           | [] => [String c EmptyString]
           | x :: xs => String c x :: xs
           end
  end.

(** [asciiSpace] of the strings package. *)
Definition is_space (c : ascii) : bool :=
  str_existsb (fun d => Ascii.eqb d c)
    (String "009" (String "010" (String "011" (String "012" (String "013" " "))))).

Fixpoint trim_left (s : string) : string :=
  match s with
  | String c s' => if is_space c then trim_left s' else s
  | EmptyString => EmptyString
  end.

Definition str_rev (s : string) : string :=
  string_of_list_ascii (rev (list_ascii_of_string s)).

(** [strings.TrimSpace] on ASCII input. *)
Definition TrimSpace (s : string) : string :=
  str_rev (trim_left (str_rev (trim_left s))).

(** [WithHeaders]: the header map is built when the option is created;
    [pair[1]] on a segment without [':'] is an index-out-of-range panic
    ([None]). *)
Definition WithHeaders (headerStr : string) : option FuncOption :=
  let headers := split_on ";" headerStr in
  let headerMap :=
    fold_left (fun acc header =>
      match acc with
      | None => None
      | Some m =>
          match split_on ":" header with
          | p0 :: p1 :: _ => Some (<[TrimSpace p0 := TrimSpace p1]> m)
          | _ => None
          end
      end) headers (Some (∅ : gmap string string)) in
  match headerMap with
  | None => None
  | Some m => Some (set_requestHeaders m)
  end.

(* ------------------------------------------------------------------ *)
(** ** Registry operations *)

(** The fields of [*url.URL] the code reads. *)
Record url := mk_url { url_Host : string; url_Path : string; url_RawQuery : string }.

(** [New]: the listener address is whatever the OS assigned. *)
Definition New (a : string) : MockServer := mk_server a [].

Definition Reset (s : MockServer) : MockServer := mk_server s.(addr) [].

(** [s.routes = append(s.routes, r)] *)
Definition register (s : MockServer) (r : route) : MockServer :=
  mk_server s.(addr) (s.(routes) ++ [r]).

(** A cassette entry, as decoded from YAML. *)
Record httpRequest := mk_httpRequest {
  hreq_Method : string; hreq_Path : string; hreq_Headers : gmap string string }.
Record httpResponse := mk_httpResponse {
  hresp_Status : Z; hresp_Headers : gmap string string; hresp_Body : string }.
Record cassetteRoute := mk_cassetteRoute {
  Request : httpRequest; Response : httpResponse }.

(** [strings.ToUpper] on ASCII input. *)
Definition ToUpper (s : string) : string := str_map to_upper_byte s.

Section WithUrlParser.

(** [url.Parse] of net/url: [None] is a parse error. *)
Variable url_Parse : string -> option url.

Definition Stub (s : MockServer) (method uri response : string)
    (options : list FuncOption) : option MockServer :=
  match url_Parse uri with
  | None => None                                   (* log.Fatal *)
  | Some u =>
      let r := mk_route u.(url_Host) method u.(url_Path) u.(url_RawQuery)
                 ∅ 0 response ∅ in
      let r := fold_left (fun r opt => opt r) options r in
      Some (register s r)
  end.

(** The loop of [loadCassette] over the decoded entries. *)
Fixpoint loadCassette_entries (cassettes : list cassetteRoute) : option (list route) :=
  match cassettes with
  | [] => Some []
  | c :: cs =>
      match url_Parse c.(Request).(hreq_Path) with
      | None => None                                 (* log.Fatalf *)
      | Some u =>
          let r := mk_route "" (ToUpper c.(Request).(hreq_Method)) u.(url_Path)
                     u.(url_RawQuery) ∅ c.(Response).(hresp_Status)
                     c.(Response).(hresp_Body) c.(Response).(hresp_Headers) in
          match loadCassette_entries cs with
          | None => None
          | Some rs => Some (r :: rs)
          end
      end
  end.

End WithUrlParser.

(** A concrete [url.Parse] for URIs of the form [path?query] with no
    scheme, host, fragment or escapes, on which it agrees with net/url:
    the path is everything before the first ['?'], the raw query
    everything after it. *)
Fixpoint split_uri (s : string) : string * string :=
  match s with
  | EmptyString => (EmptyString, EmptyString)
  | String c s' =>
      if Ascii.eqb c "?" then (EmptyString, s')
      else let '(p, q) := split_uri s' in (String c p, q)
  end.

Definition simple_url_Parse (s : string) : option url :=
  let '(p, q) := split_uri s in Some (mk_url "" p q).

(* ================================================================== *)
(** * Properties *)

(* ------------------------------------------------------------------ *)
(** ** The selection loop *)

Section Selection.

Variable q : request.

Let step := fun (routeFound : option route) (rt : route) =>
  if routeMatch rt q then Some rt else routeFound.

Lemma find_route_acc (l : list route) (acc : option route) :
  fold_left step l acc =
  match find_route l q with Some x => Some x | None => acc end.
Proof.
  revert acc. induction l as [|a l IH]; intros acc; [reflexivity|].
  unfold find_route in *. simpl. fold step. fold step in IH.
  rewrite (IH (step acc a)), (IH (if routeMatch a q then Some a else None)).
  destruct (fold_left step l None); [reflexivity|].
  unfold step. by destruct (routeMatch a q).
Qed.

Lemma find_route_app (l1 l2 : list route) :
  find_route (l1 ++ l2) q =
  match find_route l2 q with Some x => Some x | None => find_route l1 q end.
Proof.
  unfold find_route at 1. rewrite fold_left_app. fold step.
  apply find_route_acc.
Qed.

Lemma find_route_cons (rt : route) (l : list route) :
  find_route (rt :: l) q =
  match find_route l q with
  | Some x => Some x
  | None => if routeMatch rt q then Some rt else None
  end.
Proof. apply (find_route_app [rt] l). Qed.

Lemma find_route_None (l : list route) :
  find_route l q = None <-> Forall (fun rt => routeMatch rt q = false) l.
Proof.
  induction l as [|a l IH]; [split; [constructor|reflexivity]|].
  rewrite find_route_cons, Forall_cons.
  destruct (find_route l q) eqn:E.
  - split; [discriminate|]. intros [_ H]. apply IH in H. congruence.
  - destruct (routeMatch a q).
    + split; [discriminate|]. intros [H _]; discriminate.
    + split; [|reflexivity]. intros _. split; [reflexivity|]. by apply IH.
Qed.

Lemma find_route_Some (l : list route) (rt : route) :
  find_route l q = Some rt -> rt ∈ l /\ routeMatch rt q = true.
Proof.
  induction l as [|a l IH]; [discriminate|].
  rewrite find_route_cons. destruct (find_route l q) eqn:E.
  - intros [= <-]. destruct IH as [H1 H2]; [reflexivity|]. split; [by right|done].
  - destruct (routeMatch a q) eqn:M; [|discriminate].
    intros [= <-]. split; [left|done].
Qed.

(** The route selected is the last matching one. *)
Lemma find_route_last (pre post : list route) (rt : route) :
  routeMatch rt q = true ->
  Forall (fun x => routeMatch x q = false) post ->
  find_route (pre ++ rt :: post) q = Some rt.
Proof.
  intros Hm Hpost. rewrite find_route_app, find_route_cons.
  apply find_route_None in Hpost. by rewrite Hpost, Hm.
Qed.

End Selection.

Lemma headersMatch_spec (rh : gmap string string) (h : Header) :
  headersMatch rh h = true <-> map_Forall (fun k v => header_get h k = v) rh.
Proof.
  unfold headersMatch. rewrite forallb_forall. split.
  - intros H k v Hk. apply elem_of_map_to_list, list_elem_of_In in Hk.
    apply H in Hk. apply String.eqb_eq in Hk. by symmetry.
  - intros H [k v] Hin. apply list_elem_of_In, elem_of_map_to_list in Hin.
    apply String.eqb_eq. symmetry. by apply H.
Qed.

Lemma routeMatch_spec (rt : route) (q : request) :
  routeMatch rt q = true <->
  rt.(path) = q.(req_URL_Path) /\ rt.(method) = q.(req_Method) /\
  rt.(query) = q.(req_URL_RawQuery) /\
  map_Forall (fun k v => header_get q.(req_Header) k = v) rt.(requestHeaders).
Proof.
  unfold routeMatch.
  rewrite !andb_true_iff, !String.eqb_eq, headersMatch_spec. tauto.
Qed.

(** What the handler writes for a matched route. *)
Lemma written_headers_render (rt : route) :
  written_headers (render rt) = map_to_list rt.(responseHeaders).
Proof.
  unfold written_headers, render.
  induction (map_to_list rt.(responseHeaders)) as [|[k v] l IH]; [reflexivity|].
  simpl. by f_equal.
Qed.

Lemma written_status_render (rt : route) :
  written_status (render rt) =
  Some (if Z.eqb rt.(statusCode) 0 then StatusOK else rt.(statusCode)).
Proof.
  unfold written_status, render.
  induction (map_to_list rt.(responseHeaders)) as [|[k v] l IH]; [reflexivity|].
  exact IH.
Qed.

Lemma append_empty_r (s : string) : s ++ "" = s.
Proof. induction s as [|c s IH]; [reflexivity|]. exact (f_equal (String c) IH). Qed.

Lemma written_body_render (rt : route) :
  written_body (render rt) = rt.(body).
Proof.
  unfold written_body, render.
  induction (map_to_list rt.(responseHeaders)) as [|[k v] l IH].
  - simpl. apply append_empty_r.
  - exact IH.
Qed.

Lemma ServeHTTP_found (s : MockServer) (q : request) (rt : route) :
  find_route s.(routes) q = Some rt -> ServeHTTP s q = render rt.
Proof. unfold ServeHTTP. by intros ->. Qed.

(** Concrete behaviour, from the package tests. *)
Example serve_query_exact :
  let s := register (New "127.0.0.1:0")
             (mk_route "" "GET" "/get" "foo=bar&a=b" ∅ 0 "ok with query parameters" ∅) in
  ServeHTTP s (mk_request "GET" "/get" "foo=bar&a=b" ∅) =
    [WriteHeader 200; WriteString "ok with query parameters"] /\
  ServeHTTP s (mk_request "GET" "/get" "foo=bar" ∅) = [WriteHeader 404].
Proof. split; reflexivity. Qed.

(* ------------------------------------------------------------------ *)
(** ** C1: which requests select a route *)

(** The reading of "the request carries header [k] with value [v]":
    some value listed under the (case-insensitive) name [k] is [v]. *)
Definition carried (h : Header) (k v : string) : Prop :=
  exists vs, h !! CanonicalMIMEHeaderKey k = Some vs /\ v ∈ vs.

Definition route_empty_header : route :=
  mk_route "" "GET" "/" "" {["X-Debug" := ""]} 0 "ok" ∅.

(** C1 (counterexample): a route requiring header [X-Debug] with the
    empty value is selected for a request that carries no [X-Debug]
    header at all, since [Header.Get] yields [""] for a missing name; so
    "some route is selected iff some route's required headers are all
    carried by the request" fails. *)
Lemma C1_counterexample :
  ~ (forall (s : MockServer) (q : request),
       is_Some (find_route s.(routes) q) <->
       exists rt, rt ∈ s.(routes) /\ rt.(path) = q.(req_URL_Path) /\
         rt.(method) = q.(req_Method) /\ rt.(query) = q.(req_URL_RawQuery) /\
         map_Forall (fun k v => carried q.(req_Header) k v) rt.(requestHeaders)).
Proof.
  intros H.
  destruct (H (register (New "127.0.0.1:0") route_empty_header)
              (mk_request "GET" "/" "" ∅)) as [H1 _].
  destruct H1 as [rt [Hin [_ [_ [_ Hf]]]]]; [eexists; reflexivity|].
  simpl in Hin. apply list_elem_of_singleton in Hin. subst rt.
  destruct (Hf "X-Debug" "") as [vs [Hvs _]]; [reflexivity|].
  simpl in Hvs. rewrite lookup_empty in Hvs. discriminate.
Qed.

(** C1 (amended): the handler selects some route iff a registered route
    has the request's path, method (case-sensitive) and raw query
    (byte-for-byte), and for each required header [k: v], [Header.Get k]
    on the request is [v]: the first value under the case-insensitive
    name, or [""] when the request has none. *)
Theorem C1_select_iff (s : MockServer) (q : request) :
  is_Some (find_route s.(routes) q) <->
  exists rt, rt ∈ s.(routes) /\ rt.(path) = q.(req_URL_Path) /\
    rt.(method) = q.(req_Method) /\ rt.(query) = q.(req_URL_RawQuery) /\
    map_Forall (fun k v => header_get q.(req_Header) k = v) rt.(requestHeaders).
Proof.
  split.
  - intros [rt Hrt]. apply find_route_Some in Hrt as [Hin Hm].
    apply routeMatch_spec in Hm. eauto.
  - intros [rt [Hin Hm]]. apply routeMatch_spec in Hm.
    destruct (find_route s.(routes) q) eqn:E; [eauto|].
    apply find_route_None in E. rewrite Forall_forall in E.
    apply E in Hin. congruence.
Qed.

(* ------------------------------------------------------------------ *)
(** ** C2: last match wins *)

(** C2: when [R1] is registered before [R2], both match the request and
    no route registered after [R2] matches it, the handler writes
    exactly [R2]'s response. *)
Theorem C2_last_match_wins (a : string) (pre mid post : list route)
    (R1 R2 : route) (q : request) :
  routeMatch R1 q = true -> routeMatch R2 q = true ->
  Forall (fun x => routeMatch x q = false) post ->
  ServeHTTP (mk_server a (pre ++ R1 :: mid ++ R2 :: post)%list) q = render R2.
Proof.
  intros _ H2 Hpost. apply ServeHTTP_found. simpl.
  replace (pre ++ R1 :: mid ++ R2 :: post)%list with ((pre ++ R1 :: mid) ++ R2 :: post)%list
    by (rewrite <- app_assoc; reflexivity).
  by apply find_route_last.
Qed.

Lemma C2_witness :
  let R1 := mk_route "" "GET" "/abc" "" ∅ 0 "first" ∅ in
  let R2 := mk_route "" "GET" "/abc" "" ∅ 500 "second" ∅ in
  let q := mk_request "GET" "/abc" "" ∅ in
  (routeMatch R1 q = true /\ routeMatch R2 q = true /\
   Forall (fun x => routeMatch x q = false) []) /\
  ServeHTTP (mk_server "127.0.0.1:0" ([] ++ R1 :: [] ++ R2 :: [])%list) q = render R2.
Proof.
  intros R1 R2 q. split; [split; [reflexivity|split; [reflexivity|constructor]]|].
  apply C2_last_match_wins; [reflexivity|reflexivity|constructor].
Defined.

(* ------------------------------------------------------------------ *)
(** ** C3: rendering a matched route *)

(** C3: for the selected route, the handler first sets each
    [responseHeaders] entry once, then writes the status ([statusCode],
    or 200 when it is 0), then writes [body] verbatim. *)
Theorem C3_render (s : MockServer) (q : request) (rt : route) :
  find_route s.(routes) q = Some rt ->
  ServeHTTP s q =
    (map (fun '(k, v) => SetHeader k v) (written_headers (ServeHTTP s q)) ++
     [WriteHeader (if Z.eqb rt.(statusCode) 0 then StatusOK else rt.(statusCode));
      WriteString rt.(body)])%list /\
  (rt.(statusCode) <> 0%Z -> written_status (ServeHTTP s q) = Some rt.(statusCode)) /\
  (rt.(statusCode) = 0%Z -> written_status (ServeHTTP s q) = Some 200%Z) /\
  written_body (ServeHTTP s q) = rt.(body) /\
  (forall k v, (k, v) ∈ written_headers (ServeHTTP s q) <->
               rt.(responseHeaders) !! k = Some v) /\
  NoDup (map fst (written_headers (ServeHTTP s q))).
Proof.
  intros Hf. rewrite (ServeHTTP_found s q rt Hf).
  rewrite written_headers_render, written_status_render, written_body_render.
  split; [reflexivity|]. split; [|split; [|split; [reflexivity|split]]].
  - intros Hne. by rewrite (proj2 (Z.eqb_neq _ _) Hne).
  - intros ->. reflexivity.
  - intros k v. apply elem_of_map_to_list.
  - apply NoDup_fst_map_to_list.
Qed.

Lemma C3_witness :
  let rt := mk_route "" "GET" "/abc" "" ∅ 0 "ok" {["Content-Type" := "text/plain"]} in
  let s := register (New "127.0.0.1:0") rt in
  let q := mk_request "GET" "/abc" "" ∅ in
  find_route s.(routes) q = Some rt /\
  written_status (ServeHTTP s q) = Some 200%Z.
Proof.
  intros rt s q. split; [reflexivity|].
  destruct (C3_render s q rt) as [_ [_ [H _]]]; [reflexivity|].
  by apply H.
Defined.

(* ------------------------------------------------------------------ *)
(** ** C6: no match is "not found" *)

(** C6: when no registered route matches, the handler only writes
    status 404 and no body; in particular on a fresh server. *)
Theorem C6_not_found (s : MockServer) (q : request) :
  Forall (fun rt => routeMatch rt q = false) s.(routes) ->
  ServeHTTP s q = [WriteHeader StatusNotFound] /\
  written_status (ServeHTTP s q) = Some 404%Z /\
  written_body (ServeHTTP s q) = "".
Proof.
  intros H. apply find_route_None in H.
  unfold ServeHTTP. rewrite H. repeat split.
Qed.

Definition route_foo_bar_a_b : route :=
  mk_route "" "GET" "/get" "foo=bar&a=b" ∅ 0 "ok" ∅.

Definition route_post_foo_bar : route :=
  mk_route "" "POST" "/get" "foo=bar" ∅ 0 "ok" ∅.

Definition registry_no_match : MockServer :=
  register (register (New "127.0.0.1:0") route_foo_bar_a_b) route_post_foo_bar.

Lemma C6_witness :
  Forall (fun rt => routeMatch rt (mk_request "GET" "/get" "foo=bar" ∅) = false)
    registry_no_match.(routes) /\
  ServeHTTP registry_no_match (mk_request "GET" "/get" "foo=bar" ∅) =
    [WriteHeader StatusNotFound].
Proof.
  assert (Forall (fun rt => routeMatch rt (mk_request "GET" "/get" "foo=bar" ∅) = false)
            registry_no_match.(routes)) as H.
  { vm_compute. repeat constructor. }
  split; [exact H|].
  apply (C6_not_found registry_no_match (mk_request "GET" "/get" "foo=bar" ∅)).
  exact H.
Defined.

(* ------------------------------------------------------------------ *)
(** ** C4: request headers of cassette entries *)

(** Whatever [url.Parse] returns, the loader leaves every route's
    [requestHeaders] nil: [c.Request.Headers] is never read. *)
Lemma loadCassette_requestHeaders_empty (url_Parse : string -> option url)
    (cs : list cassetteRoute) (rs : list route) :
  loadCassette_entries url_Parse cs = Some rs ->
  Forall (fun r => r.(requestHeaders) = ∅) rs.
Proof.
  revert rs. induction cs as [|c cs IH]; intros rs; simpl.
  - intros [= <-]. constructor.
  - destruct (url_Parse _); [|discriminate].
    destruct (loadCassette_entries url_Parse cs) eqn:E; [|discriminate].
    intros [= <-]. constructor; [reflexivity|]. by apply IH.
Qed.

Definition cassette_with_headers : cassetteRoute :=
  mk_cassetteRoute
    (mk_httpRequest "get" "/get" {["Accept-Encoding" := "gzip,deflate"]})
    (mk_httpResponse 200 ∅ "ok").

(** C4 (failing input): a cassette entry requiring
    [Accept-Encoding: gzip,deflate] yields a route with no header
    requirement, and that route answers a request without the header. *)
Theorem C4_loader_drops_request_headers :
  exists rt,
    loadCassette_entries simple_url_Parse [cassette_with_headers] = Some [rt] /\
    rt.(requestHeaders) = ∅ /\
    rt.(requestHeaders) <> cassette_with_headers.(Request).(hreq_Headers) /\
    ServeHTTP (mk_server "127.0.0.1:0" [rt]) (mk_request "GET" "/get" "" ∅) =
      [WriteHeader 200; WriteString "ok"].
Proof.
  eexists. split; [reflexivity|]. split; [reflexivity|]. split; [|reflexivity].
  simpl. intros H. assert (Hl := f_equal (lookup "Accept-Encoding") H).
  rewrite lookup_empty, lookup_singleton_eq in Hl. discriminate.
Qed.

(* ------------------------------------------------------------------ *)
(** ** C5: the full-response override *)

Lemma status_guard_table (l : list (Z * string)) (code : Z) :
  Forall (fun p => p.2 <> "") l ->
  (0 <? String.length
          (match find (fun p => Z.eqb p.1 code) l with
           | Some (_, t) => t | None => "" end))%nat =
  bool_decide (code ∈ map fst l).
Proof.
  induction l as [|[c t] l IH]; intros Hl.
  - symmetry. apply bool_decide_eq_false. inversion 1.
  - inversion Hl as [|? ? Ht Hl']; subst. simpl in Ht.
    cbn [find map fst]. destruct (Z.eqb c code) eqn:E.
    + apply Z.eqb_eq in E. subst c.
      rewrite bool_decide_eq_true_2 by constructor.
      destruct t; [contradiction|reflexivity].
    + apply Z.eqb_neq in E. rewrite IH by done.
      apply bool_decide_ext. rewrite elem_of_cons. naive_solver.
Qed.

Lemma status_texts_nonempty : Forall (fun p => p.2 <> "") status_texts.
Proof. unfold status_texts. repeat constructor; simpl; discriminate. Qed.

Lemma status_guard (code : Z) :
  (0 <? String.length (StatusText code))%nat = bool_decide (code ∈ map fst status_texts).
Proof. apply status_guard_table, status_texts_nonempty. Qed.

Lemma body_guard (response : string) :
  (0 <? String.length response)%nat = negb (bool_decide (response = "")).
Proof. destruct response; reflexivity. Qed.

Lemma headers_guard (headers : gmap string string) :
  (0 <? size headers)%nat = negb (bool_decide (headers = ∅)).
Proof.
  destruct (bool_decide (headers = ∅)) eqn:E.
  - apply bool_decide_eq_true in E. subst. reflexivity.
  - apply bool_decide_eq_false in E. apply Nat.ltb_lt.
    destruct (size headers) eqn:S; [|lia]. by apply map_size_empty_iff in S.
Qed.

Definition route_zero : route := mk_route "" "GET" "/abc" "" ∅ 0 "" ∅.

(** C5 (counterexample): 299 is nonzero but has no [http.StatusText],
    so [WithResponse 299] leaves [statusCode] unset. *)
Lemma C5_counterexample :
  ~ (forall (code : Z) (response : string) (headers : gmap string string) (r : route),
       code <> 0%Z -> (WithResponse code response headers r).(statusCode) = code).
Proof.
  intros H. specialize (H 299%Z "" ∅ route_zero ltac:(discriminate)).
  vm_compute in H. discriminate.
Qed.

(** C5 (amended): [WithResponse code response headers] sets
    [statusCode] exactly when [code] is a status net/http has a text for
    (never 0), [body] exactly when [response] is nonempty and
    [responseHeaders] exactly when [headers] is nonempty, and leaves every
    other field as it was. *)
Theorem C5_WithResponse (code : Z) (response : string)
    (headers : gmap string string) (r : route) :
  (WithResponse code response headers r).(statusCode) =
    (if bool_decide (code ∈ map fst status_texts) then code else r.(statusCode)) /\
  (WithResponse code response headers r).(body) =
    (if bool_decide (response = "") then r.(body) else response) /\
  (WithResponse code response headers r).(responseHeaders) =
    (if bool_decide (headers = ∅) then r.(responseHeaders) else headers) /\
  (WithResponse code response headers r).(domain) = r.(domain) /\
  (WithResponse code response headers r).(method) = r.(method) /\
  (WithResponse code response headers r).(path) = r.(path) /\
  (WithResponse code response headers r).(query) = r.(query) /\
  (WithResponse code response headers r).(requestHeaders) = r.(requestHeaders) /\
  0%Z ∉ map fst status_texts.
Proof.
  unfold WithResponse. rewrite status_guard, body_guard, headers_guard.
  assert (H0 : 0%Z ∉ map fst status_texts)
    by (apply (bool_decide_unpack _); vm_compute; exact I).
  destruct (bool_decide (code ∈ _)), (bool_decide (response = "")),
    (bool_decide (headers = ∅)); simpl; repeat (split; [reflexivity|]); exact H0.
Qed.

(* ------------------------------------------------------------------ *)
(** ** C7: header matching *)

Lemma canon_char (u : bool) (c : ascii) :
  (if u && is_lower c then to_upper_byte c
   else if negb u && is_upper c then to_lower_byte c else c) =
  (if u then to_upper_byte c else to_lower_byte c).
Proof. destruct u; revert c; intros [[] [] [] [] [] [] [] []]; reflexivity. Qed.

Lemma upper_of_lower (c : ascii) : to_upper_byte (to_lower_byte c) = to_upper_byte c.
Proof. revert c; intros [[] [] [] [] [] [] [] []]; reflexivity. Qed.

Lemma valid_lower (c : ascii) :
  validHeaderFieldByte (to_lower_byte c) = validHeaderFieldByte c.
Proof. revert c; intros [[] [] [] [] [] [] [] []]; reflexivity. Qed.

(** Two names that agree up to ASCII case canonicalize alike. *)
Lemma canonicalize_case (u : bool) (k k' : string) :
  str_map to_lower_byte k = str_map to_lower_byte k' ->
  canonicalize u k = canonicalize u k'.
Proof.
  revert u k'. induction k as [|c k IH]; intros u [|c' k'] H; try discriminate;
    [reflexivity|].
  simpl in H. injection H as Hc Hk. simpl. rewrite !canon_char.
  assert (E : (if u then to_upper_byte c else to_lower_byte c) =
              (if u then to_upper_byte c' else to_lower_byte c')).
  { destruct u; [|exact Hc].
    by rewrite <- (upper_of_lower c), <- (upper_of_lower c'), Hc. }
  rewrite E. f_equal. by apply IH.
Qed.

Lemma valid_case (k k' : string) :
  str_map to_lower_byte k = str_map to_lower_byte k' ->
  str_forallb validHeaderFieldByte k = str_forallb validHeaderFieldByte k'.
Proof.
  revert k'. induction k as [|c k IH]; intros [|c' k'] H; try discriminate;
    [reflexivity|].
  simpl in H. injection H as Hc Hk. simpl.
  rewrite <- (valid_lower c), <- (valid_lower c'), Hc. f_equal. by apply IH.
Qed.

(** A header set as the transport hands it over: every name is made of
    token characters. *)
Definition wf_header (h : Header) : Prop :=
  map_Forall (fun k _ => str_forallb validHeaderFieldByte k = true) h.

Lemma header_get_case (h : Header) (k k' : string) :
  wf_header h ->
  str_map to_lower_byte k = str_map to_lower_byte k' ->
  header_get h k = header_get h k'.
Proof.
  intros Hwf Hl. unfold header_get, CanonicalMIMEHeaderKey.
  rewrite (valid_case k k' Hl).
  destruct (str_forallb validHeaderFieldByte k') eqn:V.
  - by rewrite (canonicalize_case true k k' Hl).
  - assert (Hk : h !! k = None).
    { destruct (h !! k) eqn:L; [|done]. apply Hwf in L.
      rewrite (valid_case k k' Hl), V in L. discriminate. }
    assert (Hk' : h !! k' = None).
    { destruct (h !! k') eqn:L; [|done]. apply Hwf in L. congruence. }
    by rewrite Hk, Hk'.
Qed.

Lemma header_get_add_ne (h : Header) (k v rk : string) :
  CanonicalMIMEHeaderKey rk <> CanonicalMIMEHeaderKey k ->
  header_get (header_add h k v) rk = header_get h rk.
Proof.
  intros Hne. unfold header_get, header_add.
  rewrite lookup_insert_ne; [reflexivity|]. congruence.
Qed.

Definition route_gzip : route :=
  mk_route "" "GET" "/get" "" {["Accept-Encoding" := "gzip,deflate"]} 0 "ok with headers" ∅.

Definition route_gzip_lower : route :=
  mk_route "" "GET" "/get" "" {["accept-encoding" := "gzip,deflate"]} 0 "ok with headers" ∅.

Definition header_gzip_deflate_ua : Header :=
  <["User-Agent" := ["Go-http-client/1.1"]]> {["Accept-Encoding" := ["gzip,deflate"]]}.

(** C7: adding a header whose name is none of the route's required
    names (case-insensitively) keeps a matching route matching; header
    lookup does not depend on the ASCII case of the name; values compare
    exactly: a route requiring [k: v] does not match a request whose
    [Header.Get k] differs from [v] (so [gzip] does not meet
    [gzip,deflate]). *)
Theorem C7_header_matching (rt : route) (q : request) (k v : string) :
  routeMatch rt q = true ->
  (forall rk, rk ∈ dom rt.(requestHeaders) ->
     CanonicalMIMEHeaderKey rk <> CanonicalMIMEHeaderKey k) ->
  routeMatch rt (mk_request q.(req_Method) q.(req_URL_Path) q.(req_URL_RawQuery)
                   (header_add q.(req_Header) k v)) = true /\
  (forall (h : Header) (k1 k2 : string), wf_header h ->
     str_map to_lower_byte k1 = str_map to_lower_byte k2 ->
     header_get h k1 = header_get h k2) /\
  (forall (rt' : route) (q' : request) (rk rv : string),
     rt'.(requestHeaders) !! rk = Some rv ->
     header_get q'.(req_Header) rk <> rv ->
     routeMatch rt' q' = false) /\
  routeMatch route_gzip (mk_request "GET" "/get" "" header_gzip_deflate_ua) = true /\
  routeMatch route_gzip_lower (mk_request "GET" "/get" "" header_gzip_deflate_ua) = true /\
  routeMatch route_gzip (mk_request "GET" "/get" "" {["Accept-Encoding" := ["gzip"]]}) = false.
Proof.
  intros Hm Hnot. split; [|split; [|split; [|repeat split]]].
  - apply routeMatch_spec in Hm as (Hp & Hme & Hq & Hh).
    apply routeMatch_spec. simpl. repeat split; [done..|].
    intros rk rv Hl. rewrite header_get_add_ne; [by apply Hh|].
    apply Hnot. by eapply elem_of_dom_2.
  - intros h k1 k2. apply header_get_case.
  - intros rt' q' rk rv Hl Hne.
    destruct (routeMatch rt' q') eqn:E; [|reflexivity].
    apply routeMatch_spec in E as (_ & _ & _ & Hh).
    exfalso. exact (Hne (Hh rk rv Hl)).
Qed.

Lemma C7_witness :
  routeMatch route_gzip (mk_request "GET" "/get" "" header_gzip_deflate_ua) = true /\
  routeMatch route_gzip
    (mk_request "GET" "/get" "" (header_add header_gzip_deflate_ua "x-trace-id" "42")) = true /\
  routeMatch route_gzip (mk_request "GET" "/get" "" {["Accept-Encoding" := ["gzip"]]}) = false.
Proof.
  assert (Hnot : forall rk, rk ∈ dom route_gzip.(requestHeaders) ->
            CanonicalMIMEHeaderKey rk <> CanonicalMIMEHeaderKey "x-trace-id").
  { intros rk Hrk. unfold route_gzip in Hrk. simpl in Hrk.
    rewrite dom_singleton_L in Hrk. apply elem_of_singleton in Hrk. subst rk.
    vm_compute. discriminate. }
  destruct (C7_header_matching route_gzip (mk_request "GET" "/get" "" header_gzip_deflate_ua)
              "x-trace-id" "42" eq_refl Hnot) as (Hadd & _ & Hval & _).
  split; [reflexivity|]. split; [exact Hadd|].
  apply (Hval route_gzip _ "Accept-Encoding" "gzip,deflate"); [reflexivity|].
  vm_compute. discriminate.
Defined.

(* ------------------------------------------------------------------ *)
(** ** C8: [Reset] *)

(** C8: after [Reset] every request is "not found"; registering a route
    [R] again gives the handler of a fresh server holding only [R]. *)
Theorem C8_reset (s : MockServer) (R : route) (q : request) :
  ServeHTTP (Reset s) q = [WriteHeader StatusNotFound] /\
  ServeHTTP (register (Reset s) R) q =
    (if routeMatch R q then render R else [WriteHeader StatusNotFound]) /\
  ServeHTTP (register (Reset s) R) q = ServeHTTP (register (New s.(addr)) R) q.
Proof.
  split; [reflexivity|]. split; [|reflexivity].
  unfold ServeHTTP, register, Reset. simpl.
  unfold find_route. simpl. by destruct (routeMatch R q).
Qed.

(* ------------------------------------------------------------------ *)
(** ** C9: [Stub] appends one route *)

(** An option that leaves the method, path and query of a route alone,
    as both options of the package do. *)
Definition keeps_request_line (f : FuncOption) : Prop :=
  forall r, (f r).(method) = r.(method) /\ (f r).(path) = r.(path) /\
            (f r).(query) = r.(query).

Lemma WithResponse_keeps (code : Z) (response : string) (headers : gmap string string) :
  keeps_request_line (WithResponse code response headers).
Proof.
  intros r. unfold WithResponse, set_statusCode, set_body, set_responseHeaders.
  repeat case_match; repeat split.
Qed.

Lemma WithHeaders_keeps (headerStr : string) (f : FuncOption) :
  WithHeaders headerStr = Some f -> keeps_request_line f.
Proof.
  unfold WithHeaders. destruct (fold_left _ _ _); [|discriminate].
  intros [= <-] r. repeat split.
Qed.

Lemma fold_options_keeps (opts : list FuncOption) (r : route) :
  Forall keeps_request_line opts ->
  let r' := fold_left (fun r opt => opt r) opts r in
  r'.(method) = r.(method) /\ r'.(path) = r.(path) /\ r'.(query) = r.(query).
Proof.
  revert r. induction opts as [|o opts IH]; intros r Hall; [done|].
  inversion Hall as [|? ? Ho Hall']; subst. simpl.
  destruct (IH (o r) Hall') as (H1 & H2 & H3). destruct (Ho r) as (H4 & H5 & H6).
  split; [congruence|split; congruence].
Qed.

(** C9: each [Stub] call appends exactly one route after the existing
    ones, which stay as they were; a second stub for the same method and
    URI is appended too, and with the package's options both routes carry
    the same method, path and query. *)
Theorem C9_stub_appends (url_Parse : string -> option url) (s s1 s2 : MockServer)
    (m uri b1 b2 : string) (opts1 opts2 : list FuncOption) :
  Stub url_Parse s m uri b1 opts1 = Some s1 ->
  Stub url_Parse s1 m uri b2 opts2 = Some s2 ->
  exists r1 r2,
    s1.(routes) = (s.(routes) ++ [r1])%list /\
    s2.(routes) = (s.(routes) ++ [r1; r2])%list /\
    s1.(addr) = s.(addr) /\ s2.(addr) = s.(addr) /\
    (Forall keeps_request_line opts1 -> Forall keeps_request_line opts2 ->
     r1.(method) = m /\ r2.(method) = m /\ r1.(path) = r2.(path) /\
     r1.(query) = r2.(query)).
Proof.
  unfold Stub. destruct (url_Parse uri) as [u|]; [|discriminate].
  intros [= <-] [= <-]. simpl.
  eexists _, _. split; [reflexivity|]. split; [by rewrite <- app_assoc|].
  split; [reflexivity|]. split; [reflexivity|].
  intros H1 H2.
  destruct (fold_options_keeps opts1 (mk_route (url_Host u) m (url_Path u) (url_RawQuery u) ∅ 0 b1 ∅) H1)
    as (A1 & A2 & A3).
  destruct (fold_options_keeps opts2 (mk_route (url_Host u) m (url_Path u) (url_RawQuery u) ∅ 0 b2 ∅) H2)
    as (B1 & B2 & B3).
  simpl in *. repeat split; congruence.
Qed.

Lemma C9_witness :
  exists s1 s2,
    Stub simple_url_Parse (New "127.0.0.1:0") "GET" "/abc" "ok" [] = Some s1 /\
    Stub simple_url_Parse s1 "GET" "/abc" "ok again" [] = Some s2 /\
    exists r1 r2,
      s1.(routes) = ((New "127.0.0.1:0").(routes) ++ [r1])%list /\
      s2.(routes) = ((New "127.0.0.1:0").(routes) ++ [r1; r2])%list /\
      s1.(addr) = (New "127.0.0.1:0").(addr) /\ s2.(addr) = (New "127.0.0.1:0").(addr) /\
      (Forall keeps_request_line [] -> Forall keeps_request_line [] ->
       r1.(method) = "GET" /\ r2.(method) = "GET" /\ r1.(path) = r2.(path) /\
       r1.(query) = r2.(query)).
Proof.
  eexists _, _. split; [reflexivity|]. split; [reflexivity|].
  apply (C9_stub_appends simple_url_Parse (New "127.0.0.1:0") _ _
           "GET" "/abc" "ok" "ok again" [] []); reflexivity.
Defined.

(* ------------------------------------------------------------------ *)
(** ** C10: [WithHeaders] panics on a segment without a colon *)

Lemma split_on_not_nil (sep : ascii) (s : string) : split_on sep s <> [].
Proof.
  destruct s as [|c s]; simpl; [discriminate|].
  destruct (Ascii.eqb c sep); [discriminate|].
  destruct (split_on sep s); discriminate.
Qed.

Lemma split_on_two (sep : ascii) (s : string) :
  str_existsb (fun d => Ascii.eqb d sep) s = true <->
  exists p0 p1 rest, split_on sep s = p0 :: p1 :: rest.
Proof.
  induction s as [|c s IH]; simpl.
  - split; [discriminate|]. intros (? & ? & ? & H). discriminate.
  - destruct (Ascii.eqb c sep) eqn:E; simpl.
    + split; [|done]. intros _.
      destruct (split_on sep s) as [|p1 rest] eqn:S;
        [by apply split_on_not_nil in S|eauto].
    + rewrite IH. destruct (split_on sep s) as [|p0 [|p1 rest]] eqn:S.
      * by apply split_on_not_nil in S.
      * split; intros (? & ? & ? & H); discriminate.
      * split; intros _; eauto.
Qed.

Section FoldOption.
Context {A B : Type} (f : A -> B -> option A) (P : B -> Prop).
Hypothesis f_None : forall a x, f a x = None <-> P x.

Let step := fun (acc : option A) (x : B) =>
  match acc with None => None | Some a => f a x end.

Lemma fold_step_None (l : list B) : fold_left step l None = None.
Proof. induction l; [reflexivity|exact IHl]. Qed.

Lemma fold_step_Some (l : list B) (a : A) :
  fold_left step l (Some a) = None <-> Exists P l.
Proof.
  revert a. induction l as [|x l IH]; intros a; simpl.
  - split; [discriminate|]. inversion 1.
  - rewrite Exists_cons. destruct (f a x) as [a'|] eqn:E.
    + rewrite IH. assert (~ P x) by (intros HP; apply (f_None a x) in HP; congruence). tauto.
    + rewrite fold_step_None. apply f_None in E. tauto.
Qed.

End FoldOption.

(** C10: [WithHeaders headerStr] panics exactly when one of the
    [';']-separated segments of [headerStr] has no [':'] (for the empty
    string the only segment is empty), and otherwise returns an option. *)
Theorem C10_WithHeaders_panics (headerStr : string) :
  (WithHeaders headerStr = None <->
   Exists (fun seg => str_existsb (fun d => Ascii.eqb d ":") seg = false)
     (split_on ";" headerStr)) /\
  WithHeaders "" = None.
Proof.
  split; [|reflexivity].
  pose (f := fun (m : gmap string string) (header : string) =>
    match split_on ":" header with
    | p0 :: p1 :: _ => Some (<[TrimSpace p0 := TrimSpace p1]> m)
    | _ => None
    end).
  assert (Hf : forall m header, f m header = None <->
             str_existsb (fun d => Ascii.eqb d ":") header = false).
  { intros m header. unfold f.
    destruct (str_existsb (fun d => Ascii.eqb d ":") header) eqn:E.
    - apply split_on_two in E as (p0 & p1 & rest & ->). split; discriminate.
    - assert (Hn : ~ exists p0 p1 rest, split_on ":" header = p0 :: p1 :: rest)
        by (intros Hex; apply split_on_two in Hex; congruence).
      destruct (split_on ":" header) as [|p0 [|p1 rest]];
        [done|done|exfalso; eauto]. }
  rewrite <- (fold_step_Some f _ Hf (split_on ";" headerStr) ∅).
  unfold WithHeaders. fold f.
  destruct (fold_left _ (split_on ";" headerStr) (Some ∅)); split; done.
Qed.

(* ================================================================== *)
(** * Further properties of the package *)

(* ------------------------------------------------------------------ *)
(** ** Registration and the handler *)

(** Registering a route only changes the answers to the requests that
    route matches; every other request is answered as before. *)
Theorem register_ServeHTTP (s : MockServer) (R : route) (q : request) :
  ServeHTTP (register s R) q =
  if routeMatch R q then render R else ServeHTTP s q.
Proof.
  unfold ServeHTTP, register. simpl. rewrite find_route_app.
  unfold find_route at 1. simpl.
  destruct (routeMatch R q); [reflexivity|].
  reflexivity.
Qed.

(** A [Stub] without options answers a request with its method, the
    path and raw query of the parsed URI and any headers at all with
    status 200 and the stub's body; the URI's host plays no part. *)
Theorem Stub_default_response (url_Parse : string -> option url)
    (s s' : MockServer) (m uri b : string) (u : url) (h : Header) :
  url_Parse uri = Some u ->
  Stub url_Parse s m uri b [] = Some s' ->
  ServeHTTP s' (mk_request m u.(url_Path) u.(url_RawQuery) h) =
    [WriteHeader StatusOK; WriteString b].
Proof.
  intros Hu. unfold Stub. rewrite Hu. intros [= <-].
  unfold ServeHTTP, register. simpl.
  rewrite (find_route_last _ s.(routes) []); [reflexivity| |constructor].
  unfold routeMatch. simpl. rewrite !String.eqb_refl. reflexivity.
Qed.

Lemma Stub_default_response_witness :
  simple_url_Parse "/abc?x=1" = Some (mk_url "" "/abc" "x=1") /\
  Stub simple_url_Parse (New "127.0.0.1:0") "GET" "/abc?x=1" "ok" [] =
    Some (register (New "127.0.0.1:0") (mk_route "" "GET" "/abc" "x=1" ∅ 0 "ok" ∅)) /\
  ServeHTTP (register (New "127.0.0.1:0") (mk_route "" "GET" "/abc" "x=1" ∅ 0 "ok" ∅))
    (mk_request "GET" "/abc" "x=1" header_gzip_deflate_ua) =
    [WriteHeader StatusOK; WriteString "ok"].
Proof.
  split; [reflexivity|]. split; [reflexivity|].
  exact (Stub_default_response simple_url_Parse (New "127.0.0.1:0") _ "GET" "/abc?x=1" "ok"
           (mk_url "" "/abc" "x=1") header_gzip_deflate_ua eq_refl eq_refl).
Defined.

(* ------------------------------------------------------------------ *)
(** ** Options compose *)

Lemma WithHeaders_Some (headerStr : string) (f : FuncOption) :
  WithHeaders headerStr = Some f -> exists m, f = set_requestHeaders m.
Proof.
  unfold WithHeaders. destruct (fold_left _ _ _) as [m|]; [|discriminate].
  intros [= <-]. eauto.
Qed.

(** [WithHeaders] and [WithResponse] options commute, and of two
    [WithHeaders] options the one applied last decides the required
    headers. *)
Theorem options_compose (hs1 hs2 : string) (f g : FuncOption) (code : Z)
    (response : string) (headers : gmap string string) (r : route) :
  WithHeaders hs1 = Some f -> WithHeaders hs2 = Some g ->
  WithResponse code response headers (f r) = f (WithResponse code response headers r) /\
  g (f r) = g r.
Proof.
  intros Hf Hg.
  destruct (WithHeaders_Some _ _ Hf) as [m ->], (WithHeaders_Some _ _ Hg) as [n ->].
  split; [|reflexivity].
  unfold WithResponse, set_requestHeaders, set_statusCode, set_body, set_responseHeaders.
  repeat case_match; reflexivity.
Qed.

Lemma options_compose_witness :
  exists f g,
    WithHeaders "Accept: json" = Some f /\ WithHeaders "Accept: xml" = Some g /\
    WithResponse 500 "Ah oh" ∅ (f route_zero) = f (WithResponse 500 "Ah oh" ∅ route_zero) /\
    g (f route_zero) = g route_zero.
Proof.
  eexists _, _. split; [reflexivity|]. split; [reflexivity|].
  apply (options_compose "Accept: json" "Accept: xml"); reflexivity.
Defined.

(* ------------------------------------------------------------------ *)
(** ** Header names that are not tokens *)

(** A required header whose name holds a byte that is not a token
    character (a space, say, as in [WithHeaders "X Y: 1"]) is looked up
    verbatim; a request whose header names are tokens never carries it,
    so the route never matches unless the required value is empty. *)
Theorem invalid_header_name_never_matches (rt : route) (q : request) (k v : string) :
  wf_header q.(req_Header) ->
  rt.(requestHeaders) !! k = Some v ->
  str_forallb validHeaderFieldByte k = false ->
  v <> "" ->
  routeMatch rt q = false.
Proof.
  intros Hwf Hk Hinv Hv.
  destruct (routeMatch rt q) eqn:M; [|reflexivity].
  apply routeMatch_spec in M as (_ & _ & _ & Hh).
  specialize (Hh k v Hk). unfold header_get, CanonicalMIMEHeaderKey in Hh.
  rewrite Hinv in Hh.
  destruct (q.(req_Header) !! k) eqn:L.
  - apply Hwf in L. congruence.
  - congruence.
Qed.

Lemma invalid_header_name_witness :
  exists f,
    WithHeaders "X Y: 1" = Some f /\
    wf_header header_gzip_deflate_ua /\
    routeMatch (f route_gzip) (mk_request "GET" "/get" "" header_gzip_deflate_ua) = false.
Proof.
  eexists. split; [reflexivity|].
  assert (Hwf : wf_header header_gzip_deflate_ua).
  { unfold wf_header, header_gzip_deflate_ua. apply map_Forall_insert_2; [reflexivity|].
    apply map_Forall_singleton. reflexivity. }
  split; [exact Hwf|].
  apply (invalid_header_name_never_matches _ _ "X Y" "1"); [exact Hwf|reflexivity|reflexivity|discriminate].
Defined.

(* ------------------------------------------------------------------ *)
(** ** [WithHeaders]: parsing a header list *)

Definition no_byte (c : ascii) (s : string) : Prop :=
  str_existsb (fun d => Ascii.eqb d c) s = false.

Lemma str_existsb_app (f : ascii -> bool) (a b : string) :
  str_existsb f (a ++ b) = str_existsb f a || str_existsb f b.
Proof. induction a as [|c a IH]; [reflexivity|]. simpl. rewrite IH. apply orb_assoc. Qed.

Lemma split_on_no_sep (sep : ascii) (a : string) :
  no_byte sep a -> split_on sep a = [a].
Proof.
  unfold no_byte. induction a as [|c a IH]; [reflexivity|]. simpl.
  intros H. apply orb_false_iff in H as [Hc Ha]. rewrite Hc, (IH Ha). reflexivity.
Qed.

Lemma split_on_app_sep (sep : ascii) (a b : string) :
  no_byte sep a -> split_on sep (a ++ String sep b) = a :: split_on sep b.
Proof.
  unfold no_byte. induction a as [|c a IH]; simpl.
  - intros _. by rewrite Ascii.eqb_refl.
  - intros H. apply orb_false_iff in H as [Hc Ha]. rewrite Hc, (IH Ha). reflexivity.
Qed.

Lemma str_app_assoc (a b c : string) : a ++ (b ++ c) = (a ++ b) ++ c.
Proof. induction a as [|x a IH]; [reflexivity|]. exact (f_equal (String x) IH). Qed.

Lemma TrimSpace_space (s : string) : TrimSpace (String " " s) = TrimSpace s.
Proof. reflexivity. Qed.

(** One [name: value] entry, and entries joined by ["; "]. *)
Definition header_segment (p : string * string) : string :=
  p.1 ++ String ":" (String " " p.2).

Fixpoint join_headers (l : list (string * string)) : string :=
  match l with
  | [] => ""
  | [p] => header_segment p
  | p :: ps => header_segment p ++ String ";" (String " " (join_headers ps))
  end.

(** A name or value that survives the round trip: no [':'], no [';'],
    no surrounding white space. *)
Definition plain (s : string) : Prop :=
  no_byte ":" s /\ no_byte ";" s /\ TrimSpace s = s.

Definition plain_pair (p : string * string) : Prop := plain p.1 /\ plain p.2.

Lemma segment_no_semicolon (p : string * string) :
  plain_pair p -> no_byte ";" (header_segment p).
Proof.
  intros [(_ & H1 & _) (_ & H2 & _)]. unfold no_byte, header_segment in *.
  rewrite str_existsb_app. rewrite H1. simpl. exact H2.
Qed.

Lemma split_join (p : string * string) (ps : list (string * string)) :
  Forall plain_pair (p :: ps) ->
  split_on ";" (join_headers (p :: ps)) =
  header_segment p :: map (fun p' => String " " (header_segment p')) ps.
Proof.
  revert p. induction ps as [|p' ps IH]; intros p Hall.
  - apply split_on_no_sep, segment_no_semicolon. by inversion Hall.
  - inversion Hall as [|? ? Hp Hps]; subst.
    change (join_headers (p :: p' :: ps))
      with (header_segment p ++ String ";" (String " " (join_headers (p' :: ps)))).
    rewrite split_on_app_sep by (by apply segment_no_semicolon).
    f_equal.
    change (split_on ";" (String " " (join_headers (p' :: ps)))) with
      (match split_on ";" (join_headers (p' :: ps)) with
       | [] => [String " " EmptyString]
       | x :: xs => String " " x :: xs
       end).
    rewrite (IH p' Hps). reflexivity.
Qed.

Lemma split_segment (lead : string) (p : string * string) :
  no_byte ":" lead -> plain_pair p ->
  split_on ":" (lead ++ header_segment p) = [lead ++ p.1; String " " p.2].
Proof.
  intros Hl [(Hk & _ & _) (Hv & _ & _)]. unfold header_segment.
  rewrite str_app_assoc, split_on_app_sep.
  - rewrite split_on_no_sep; [reflexivity|]. exact Hv.
  - unfold no_byte in *. rewrite str_existsb_app, Hl. exact Hk.
Qed.

(** The loop body of [WithHeaders]. *)
Definition header_step (acc : option (gmap string string)) (header : string)
  : option (gmap string string) :=
  match acc with
  | None => None
  | Some m =>
      match split_on ":" header with
      | p0 :: p1 :: _ => Some (<[TrimSpace p0 := TrimSpace p1]> m)
      | _ => None
      end
  end.

Lemma WithHeaders_eq (headerStr : string) :
  WithHeaders headerStr =
  match fold_left header_step (split_on ";" headerStr) (Some ∅) with
  | None => None
  | Some m => Some (set_requestHeaders m)
  end.
Proof. reflexivity. Qed.

Definition insert_pair (m : gmap string string) (p : string * string) :=
  <[p.1 := p.2]> m.

Lemma header_step_segment (lead : string) (p : string * string) (m : gmap string string) :
  no_byte ":" lead -> TrimSpace (lead ++ p.1) = p.1 -> plain_pair p ->
  header_step (Some m) (lead ++ header_segment p) = Some (insert_pair m p).
Proof.
  intros Hl Hk Hp. unfold header_step. rewrite split_segment by done.
  destruct Hp as [_ (_ & _ & Hv)].
  rewrite Hk. change (TrimSpace (String " " p.2)) with (TrimSpace p.2). by rewrite Hv.
Qed.

Lemma fold_header_step (ps : list (string * string)) (m : gmap string string) :
  Forall plain_pair ps ->
  fold_left header_step (map (fun p' => String " " (header_segment p')) ps) (Some m) =
  Some (fold_left insert_pair ps m).
Proof.
  revert m. induction ps as [|p ps IH]; intros m Hall; [reflexivity|].
  inversion Hall as [|? ? Hp Hps]; subst. cbn [map fold_left].
  change (String " " (header_segment p)) with (" " ++ header_segment p).
  rewrite (header_step_segment " " p m); [by apply IH|reflexivity| |done].
  destruct Hp as [(_ & _ & Hk) _]. exact (eq_trans (TrimSpace_space p.1) Hk).
Qed.

Lemma fold_insert_pair_lookup (l : list (string * string)) (m : gmap string string) (k : string) :
  fold_left insert_pair l m !! k =
  match last (omap (fun p => if String.eqb p.1 k then Some p.2 else None) l) with
  | Some v => Some v
  | None => m !! k
  end.
Proof.
  revert m. induction l as [|p l IH]; intros m; [reflexivity|].
  simpl. rewrite IH. unfold insert_pair.
  destruct (String.eqb p.1 k) eqn:E.
  - apply String.eqb_eq in E. subst k. rewrite last_cons, lookup_insert_eq.
    by destruct (last _).
  - apply String.eqb_neq in E. rewrite lookup_insert_ne by done. reflexivity.
Qed.

(** Round trip: joining name/value pairs as ["n1: v1; n2: v2; ..."] and
    passing the result to [WithHeaders] requires, for each name, the
    value of its last occurrence, and no other name (names and values
    without [':'], [';'] or surrounding white space). *)
Theorem WithHeaders_roundtrip (l : list (string * string)) (r : route) :
  l <> [] -> Forall plain_pair l ->
  exists f, WithHeaders (join_headers l) = Some f /\
    forall k, (f r).(requestHeaders) !! k =
      last (omap (fun p => if String.eqb p.1 k then Some p.2 else None) l).
Proof.
  intros Hne Hall. destruct l as [|p ps]; [contradiction|].
  rewrite WithHeaders_eq, split_join by done.
  inversion Hall as [|? ? Hp Hps]; subst.
  cbn [fold_left].
  change (header_segment p) with ("" ++ header_segment p) at 1.
  rewrite (header_step_segment "" p ∅); [|reflexivity|apply Hp|exact Hp].
  rewrite fold_header_step by done.
  eexists. split; [reflexivity|]. intros k. simpl.
  change (fold_left insert_pair ps (insert_pair ∅ p)) with (fold_left insert_pair (p :: ps) ∅).
  rewrite fold_insert_pair_lookup. by destruct (last _).
Qed.

Lemma WithHeaders_roundtrip_witness :
  exists f,
    WithHeaders "Accept: json; X-Id: 1; Accept: xml" = Some f /\
    (f route_zero).(requestHeaders) !! "Accept" = Some "xml".
Proof.
  destruct (WithHeaders_roundtrip [("Accept", "json"); ("X-Id", "1"); ("Accept", "xml")]
              route_zero) as [f [Hf Hk]].
  - discriminate.
  - repeat constructor.
  - exists f. split; [exact Hf|]. rewrite Hk. reflexivity.
Defined.

(** A value holding a [':'] is cut at it: of ["Host: localhost:8080"]
    only ["localhost"] is required. *)
Theorem WithHeaders_value_truncated (k v1 v2 : string) (r : route) :
  plain k -> no_byte ":" v1 -> no_byte ";" v1 -> no_byte ";" v2 ->
  exists f, WithHeaders (k ++ String ":" (v1 ++ String ":" v2)) = Some f /\
    (f r).(requestHeaders) = {[k := TrimSpace v1]}.
Proof.
  intros (Hk & Hks & Hkt) Hv1 Hv1s Hv2s.
  rewrite WithHeaders_eq, split_on_no_sep.
  2:{ unfold no_byte in *. rewrite str_existsb_app, Hks. simpl.
      rewrite str_existsb_app, Hv1s. exact Hv2s. }
  simpl fold_left. unfold header_step.
  rewrite split_on_app_sep by done. rewrite split_on_app_sep by done.
  rewrite Hkt. eexists. split; [reflexivity|]. reflexivity.
Qed.

Lemma WithHeaders_value_truncated_witness :
  exists f, WithHeaders ("Host" ++ String ":" (" localhost" ++ String ":" "8080")) = Some f /\
    (f route_zero).(requestHeaders) = {["Host" := TrimSpace " localhost"]}.
Proof.
  apply WithHeaders_value_truncated; [repeat split|reflexivity|reflexivity|reflexivity].
Defined.

(* ------------------------------------------------------------------ *)
(** ** Loading cassettes from files and directories *)

(** What [os.Stat]/[os.Open] find at a path: a file, with the entries
    its YAML decodes to ([None] when it cannot be read or is not a list
    of cassette entries), or a directory, with its entries in the order
    [ioutil.ReadDir] lists them (sorted by name).  Every non-directory is
    taken to be a regular file. *)
#[warnings="-register-all"]
Inductive fs_node :=
| FsFile (decoded : option (list cassetteRoute))
| FsDir (entries : list (string * fs_node)).

Section Loader.

Variable url_Parse : string -> option url.

(** [loadCassette]: opening a directory succeeds but reading it fails,
    so the decoder reports an error and the load is fatal. *)
Definition loadCassette (n : fs_node) : option (list route) :=
  match n with
  | FsFile (Some cassettes) => loadCassette_entries url_Parse cassettes
  | FsFile None => None                              (* log.Fatalf *)
  | FsDir _ => None                                  (* log.Fatalf *)
  end.

(** [loadCassettes]: [loadCassette] on each directory entry in turn. *)
Fixpoint loadCassettes (files : list (string * fs_node)) : option (list route) :=
  match files with
  | [] => Some []
  | (_, f) :: fs =>
      match loadCassette f with
      | None => None
      | Some r =>
          match loadCassettes fs with
          | None => None
          | Some rs => Some (r ++ rs)%list
          end
      end
  end.

(** [LoadCassette]: [None] for the stat result is a missing or
    unreadable path. *)
Definition LoadCassette (s : MockServer) (stat : option fs_node) : option MockServer :=
  let loaded :=
    match stat with
    | None => None                                   (* log.Fatal *)
    | Some (FsDir files) => loadCassettes files
    | Some (FsFile _ as f) => loadCassette f
    end in
  match loaded with
  | None => None
  | Some rs => Some (mk_server s.(addr) (s.(routes) ++ rs)%list)
  end.

End Loader.

Lemma to_upper_byte_not_lower (c : ascii) : is_lower (to_upper_byte c) = false.
Proof. revert c; intros [[] [] [] [] [] [] [] []]; reflexivity. Qed.

Lemma ToUpper_no_lower (m : string) :
  str_forallb (fun c => negb (is_lower c)) (ToUpper m) = true.
Proof.
  induction m as [|c m IH]; [reflexivity|]. simpl.
  rewrite to_upper_byte_not_lower. exact IH.
Qed.

(** Each cassette entry gives one route, in order: the method upper-cased
    (so it holds no lower-case ASCII letter), path and raw query from the
    parsed path, status, body and response headers copied, no required
    headers and no host. *)
Theorem loadCassette_entries_fields (url_Parse : string -> option url)
    (cs : list cassetteRoute) (rs : list route) :
  loadCassette_entries url_Parse cs = Some rs ->
  Forall2 (fun c r =>
    r.(method) = ToUpper c.(Request).(hreq_Method) /\
    str_forallb (fun x => negb (is_lower x)) r.(method) = true /\
    (exists u, url_Parse c.(Request).(hreq_Path) = Some u /\
               r.(path) = u.(url_Path) /\ r.(query) = u.(url_RawQuery)) /\
    r.(statusCode) = c.(Response).(hresp_Status) /\
    r.(body) = c.(Response).(hresp_Body) /\
    r.(responseHeaders) = c.(Response).(hresp_Headers) /\
    r.(requestHeaders) = ∅ /\ r.(domain) = "") cs rs.
Proof.
  revert rs. induction cs as [|c cs IH]; intros rs; simpl.
  - intros [= <-]. constructor.
  - destruct (url_Parse _) as [u|] eqn:U; [|discriminate].
    destruct (loadCassette_entries url_Parse cs) eqn:E; [|discriminate].
    intros [= <-]. constructor; [|by apply IH].
    simpl. split; [reflexivity|]. split; [apply ToUpper_no_lower|].
    split; [eauto|]. repeat split.
Qed.

Lemma loadCassette_entries_fields_witness :
  loadCassette_entries simple_url_Parse [cassette_with_headers] =
    Some [mk_route "" "GET" "/get" "" ∅ 200 "ok" ∅] /\
  Forall2 (fun c r =>
    r.(method) = ToUpper c.(Request).(hreq_Method) /\
    str_forallb (fun x => negb (is_lower x)) r.(method) = true /\
    (exists u, simple_url_Parse c.(Request).(hreq_Path) = Some u /\
               r.(path) = u.(url_Path) /\ r.(query) = u.(url_RawQuery)) /\
    r.(statusCode) = c.(Response).(hresp_Status) /\
    r.(body) = c.(Response).(hresp_Body) /\
    r.(responseHeaders) = c.(Response).(hresp_Headers) /\
    r.(requestHeaders) = ∅ /\ r.(domain) = "")
    [cassette_with_headers] [mk_route "" "GET" "/get" "" ∅ 200 "ok" ∅].
Proof.
  split; [reflexivity|]. apply loadCassette_entries_fields. reflexivity.
Defined.

(** A cassette loads entirely or not at all: the load is fatal exactly
    when the path of some entry does not parse. *)
Theorem loadCassette_entries_fatal (url_Parse : string -> option url)
    (cs : list cassetteRoute) :
  loadCassette_entries url_Parse cs = None <->
  Exists (fun c => url_Parse c.(Request).(hreq_Path) = None) cs.
Proof.
  induction cs as [|c cs IH]; simpl.
  - split; [discriminate|]. inversion 1.
  - rewrite Exists_cons. destruct (url_Parse _) as [u|] eqn:U.
    + destruct (loadCassette_entries url_Parse cs); rewrite <- IH;
        split; try discriminate; intuition congruence.
    + split; auto.
Qed.

(** A directory loads as the concatenation, in listing order, of what
    each of its entries loads. *)
Theorem loadCassettes_concat (url_Parse : string -> option url)
    (fs : list (string * fs_node)) (rs : list route) :
  loadCassettes url_Parse fs = Some rs <->
  exists rss, Forall2 (fun f r => loadCassette url_Parse f.2 = Some r) fs rss /\
              rs = concat rss.
Proof.
  revert rs. induction fs as [|[name f] fs IH]; intros rs; simpl.
  - split.
    + intros [= <-]. exists []. split; [constructor|reflexivity].
    + intros (rss & H & ->). inversion H. reflexivity.
  - destruct (loadCassette url_Parse f) as [r|] eqn:L.
    + destruct (loadCassettes url_Parse fs) as [rs'|] eqn:E.
      * split.
        -- intros [= <-]. destruct (proj1 (IH rs') eq_refl) as (rss & H & ->).
           exists (r :: rss). split; [by constructor|reflexivity].
        -- intros (rss & H & ->). inversion H as [|? r0 ? rss0 Hr Hrss]; subst.
           simpl in Hr. rewrite L in Hr. injection Hr as <-.
           assert (Hs : Some rs' = Some (concat rss0)) by (apply IH; eauto).
           injection Hs as ->. reflexivity.
      * split; [discriminate|]. intros (rss & H & ->).
        inversion H as [|? ? ? rss0 _ Hrss]; subst.
        assert (Hs : None = Some (concat rss0)) by (apply IH; eauto).
        discriminate.
    + split; [discriminate|]. intros (rss & H & _).
      inversion H as [|? ? ? ? Hr _]; subst. simpl in Hr. congruence.
Qed.

(** A directory load is fatal exactly when one of its entries fails to
    load. *)
Theorem loadCassettes_fatal (url_Parse : string -> option url)
    (fs : list (string * fs_node)) :
  loadCassettes url_Parse fs = None <->
  Exists (fun f => loadCassette url_Parse f.2 = None) fs.
Proof.
  induction fs as [|[name f] fs IH]; simpl.
  - split; [discriminate|]. inversion 1.
  - rewrite Exists_cons. simpl. destruct (loadCassette url_Parse f).
    + destruct (loadCassettes url_Parse fs); rewrite <- IH;
        split; try discriminate; intuition congruence.
    + split; auto.
Qed.

(** A directory holding a subdirectory cannot be loaded: subdirectories
    are opened as cassette files. *)
Theorem LoadCassette_nested_dir_fatal (url_Parse : string -> option url)
    (s : MockServer) (fs : list (string * fs_node)) (name : string)
    (sub : list (string * fs_node)) :
  (name, FsDir sub) ∈ fs ->
  LoadCassette url_Parse s (Some (FsDir fs)) = None.
Proof.
  intros Hin. unfold LoadCassette.
  assert (H : loadCassettes url_Parse fs = None).
  { apply loadCassettes_fatal, Exists_exists. exists (name, FsDir sub).
    split; [first [exact Hin | by apply list_elem_of_In]|reflexivity]. }
  by rewrite H.
Qed.

Lemma LoadCassette_nested_dir_witness :
  (("old", FsDir []) ∈ [("a.yml", FsFile (Some [cassette_with_headers])); ("old", FsDir [])]) /\
  LoadCassette simple_url_Parse (New "127.0.0.1:0")
    (Some (FsDir [("a.yml", FsFile (Some [cassette_with_headers])); ("old", FsDir [])])) = None.
Proof.
  assert (Hin : ("old", FsDir []) ∈
            [("a.yml", FsFile (Some [cassette_with_headers])); ("old", FsDir [])])
    by (right; left).
  split; [exact Hin|]. exact (LoadCassette_nested_dir_fatal _ _ _ _ _ Hin).
Defined.

(** [LoadCassette] appends the loaded routes after the registered ones:
    the loaded routes answer the requests they match (the last of them
    first) and every other request is answered as before. *)
Theorem LoadCassette_layered (url_Parse : string -> option url)
    (s s' : MockServer) (stat : option fs_node) :
  LoadCassette url_Parse s stat = Some s' ->
  exists rs, s'.(routes) = (s.(routes) ++ rs)%list /\ s'.(addr) = s.(addr) /\
    forall q, ServeHTTP s' q =
      match find_route rs q with Some r => render r | None => ServeHTTP s q end.
Proof.
  unfold LoadCassette.
  destruct (match stat with
            | Some (FsDir files) => loadCassettes url_Parse files
            | Some (FsFile _ as f) => loadCassette url_Parse f
            | None => None end) as [rs|]; [|discriminate].
  intros [= <-]. exists rs. split; [reflexivity|]. split; [reflexivity|].
  intros q. unfold ServeHTTP. simpl. rewrite find_route_app.
  by destruct (find_route rs q).
Qed.

Lemma LoadCassette_layered_witness :
  exists s',
    LoadCassette simple_url_Parse (New "127.0.0.1:0")
      (Some (FsFile (Some [cassette_with_headers]))) = Some s' /\
    ServeHTTP s' (mk_request "GET" "/get" "" ∅) = [WriteHeader 200; WriteString "ok"].
Proof.
  eexists. split; [reflexivity|].
  destruct (LoadCassette_layered simple_url_Parse (New "127.0.0.1:0") _
              (Some (FsFile (Some [cassette_with_headers]))) eq_refl)
    as (rs & Hrs & _ & Hq).
  rewrite Hq. simpl in Hrs. subst rs. reflexivity.
Defined.

(* ------------------------------------------------------------------ *)
(** ** The legacy package [gowebmock] *)

(** Names of the webmock package, for use inside [Gowebmock]. *)
Abbreviation webmock_route := route.
Abbreviation webmock_mk_route := mk_route.
Abbreviation webmock_mk_server := mk_server.
Abbreviation webmock_find_route := find_route.
Abbreviation webmock_routeMatch := routeMatch.
Abbreviation webmock_ServeHTTP := ServeHTTP.
Abbreviation webmock_WithHeaders := WithHeaders.
Abbreviation webmock_WithHeaders_eq := WithHeaders_eq.
Abbreviation webmock_Stub := Stub.
Abbreviation webmock_FuncOption := FuncOption.

Module Gowebmock.

(** [route] of gowebmock.go: no status code and no response headers. *)
Record route := mk_route {
  domain : string;
  method : string;
  path : string;
  query : string;
  headers : gmap string string;
  response : string
}.

Record mockServer := mk_server {
  addr : string;
  routes : list route
}.

Definition FuncOption := route -> route.

Definition set_headers (m : gmap string string) (r : route) : route :=
  mk_route r.(domain) r.(method) r.(path) r.(query) m r.(response).

(** [WithHeaders]: the same loop as in webmock.go, storing into
    [r.headers]. *)
Definition WithHeaders (headerStr : string) : option FuncOption :=
  match fold_left header_step (split_on ";" headerStr) (Some ∅) with
  | None => None
  | Some m => Some (set_headers m)
  end.

(** [headersMatch] is the same function as in webmock.go (it also
    prints the headers it compares). *)
Definition routeMatch (rt : route) (r : request) : bool :=
  String.eqb rt.(path) r.(req_URL_Path) &&
  String.eqb rt.(method) r.(req_Method) &&
  String.eqb rt.(query) r.(req_URL_RawQuery) &&
  headersMatch rt.(headers) r.(req_Header).

Definition find_route (rs : list route) (r : request) : option route :=
  fold_left (fun routeFound rt => if routeMatch rt r then Some rt else routeFound)
    rs None.

Definition ServeHTTP (s : mockServer) (r : request) : list write_event :=
  match find_route s.(routes) r with
  | None => [WriteHeader StatusNotFound]
  | Some routeFound => [WriteHeader StatusOK; WriteString routeFound.(response)]
  end.

Section WithUrlParser.
Variable url_Parse : string -> option url.

Definition Stub (s : mockServer) (method uri response : string)
    (options : list FuncOption) : option mockServer :=
  match url_Parse uri with
  | None => None                                   (* log.Fatal *)
  | Some u =>
      let r := mk_route u.(url_Host) method u.(url_Path) u.(url_RawQuery) ∅ response in
      let r := fold_left (fun r opt => opt r) options r in
      Some (mk_server s.(addr) (s.(routes) ++ [r])%list)
  end.
End WithUrlParser.

(** A legacy route read as a webmock route with no status code and no
    response headers. *)
Definition to_webmock (r : route) : webmock_route :=
  webmock_mk_route r.(domain) r.(method) r.(path) r.(query) r.(headers) 0
    r.(response) ∅.

Definition to_webmock_server (s : mockServer) : MockServer :=
  webmock_mk_server s.(addr) (map to_webmock s.(routes)).

Lemma find_route_to_webmock (rs : list route) (q : request) :
  webmock_find_route (map to_webmock rs) q = option_map to_webmock (find_route rs q).
Proof.
  unfold webmock_find_route, find_route.
  change (@None webmock_route) with (option_map to_webmock (@None route)).
  generalize (@None route). induction rs as [|r rs IH]; intros acc; [reflexivity|].
  simpl. rewrite <- IH. f_equal.
  assert (E : webmock_routeMatch (to_webmock r) q = routeMatch r q) by reflexivity.
  rewrite E. by destruct (routeMatch r q).
Qed.

(** The legacy handler answers every request as the webmock handler
    answers it for the same routes with no status code and no response
    headers: status 200 and the stub's response for the last matching
    route, 404 when none matches. *)
Theorem ServeHTTP_refines (s : mockServer) (q : request) :
  ServeHTTP s q = webmock_ServeHTTP (to_webmock_server s) q.
Proof.
  unfold ServeHTTP, webmock_ServeHTTP, to_webmock_server. simpl.
  rewrite find_route_to_webmock. destruct (find_route s.(routes) q); reflexivity.
Qed.

(** The two [WithHeaders] accept the same strings and require the same
    headers. *)
Lemma WithHeaders_corr (headerStr : string) :
  match WithHeaders headerStr, webmock_WithHeaders headerStr with
  | Some f, Some g => forall r, to_webmock (f r) = g (to_webmock r)
  | None, None => True
  | _, _ => False
  end.
Proof.
  unfold WithHeaders. rewrite webmock_WithHeaders_eq.
  destruct (fold_left header_step _ _); [|exact I]. intros r. reflexivity.
Qed.

(** Stubbing the legacy server and then reading it as a webmock server
    is stubbing the webmock server with corresponding options. *)
Theorem Stub_refines (url_Parse : string -> option url) (s : mockServer)
    (m uri resp : string) (opts : list FuncOption) (gopts : list webmock_FuncOption) :
  Forall2 (fun f g => forall r, to_webmock (f r) = g (to_webmock r)) opts gopts ->
  option_map to_webmock_server (Stub url_Parse s m uri resp opts) =
  webmock_Stub url_Parse (to_webmock_server s) m uri resp gopts.
Proof.
  intros Hcorr. unfold Stub, webmock_Stub.
  destruct (url_Parse uri) as [u|]; [|reflexivity]. simpl.
  unfold to_webmock_server, register. simpl. rewrite map_app. simpl.
  do 3 f_equal.
  change (webmock_mk_route u.(url_Host) m u.(url_Path) u.(url_RawQuery) ∅ 0 resp ∅)
    with (to_webmock (mk_route u.(url_Host) m u.(url_Path) u.(url_RawQuery) ∅ resp)).
  generalize (mk_route u.(url_Host) m u.(url_Path) u.(url_RawQuery) ∅ resp).
  induction Hcorr as [|f g opts gopts Hfg _ IH]; intros r; [reflexivity|].
  simpl. rewrite <- Hfg. apply IH.
Qed.

Lemma Stub_refines_witness :
  exists f g,
    WithHeaders "Accept: json" = Some f /\ webmock_WithHeaders "Accept: json" = Some g /\
    option_map to_webmock_server
      (Stub simple_url_Parse (mk_server "127.0.0.1:0" []) "GET" "/abc" "ok" [f]) =
    webmock_Stub simple_url_Parse (to_webmock_server (mk_server "127.0.0.1:0" []))
      "GET" "/abc" "ok" [g].
Proof.
  eexists _, _. split; [reflexivity|]. split; [reflexivity|].
  apply Stub_refines. constructor; [|constructor].
  exact (WithHeaders_corr "Accept: json").
Defined.

End Gowebmock.
